(** * alitiq demand-forecast client: a shallow embedding

    The development follows [alitiq/demand_forecast.py].  The three public
    methods of [alitiqDemandAPI] are embedded as computations in a small
    state-and-exception monad: the state carries the wall clock read by
    [datetime.now()] and the log of the calls made to the request layer,
    exceptions are the Python exceptions the methods can raise.

    The modules the client imports ([alitiq.base],
    [alitiq.enumerations.forecast_models], [alitiq.enumerations.services],
    [alitiq.models.demand_forecast]) and the libraries it calls (pandas,
    json, datetime formatting) are interfaces of the development: type
    classes whose instances supply them. *)

From Stdlib Require Import ZArith String List Lia.
From stdpp Require Import base option list strings pretty gmap.

Local Open Scope string_scope.
Local Open Scope list_scope.
Local Open Scope Z_scope.

(** ** Python's naive [datetime] *)

Module Datetime.

(** A naive datetime is a point on the proleptic Gregorian time line,
    counted in microseconds from [datetime.min] (0001-01-01T00:00:00). *)
Record datetime := mk_datetime { micros : Z }.

(** [timedelta(days=...)] in microseconds. *)
Definition US_PER_DAY : Z := 86400 * 1000000.
Definition timedelta (days : Z) : Z := days * US_PER_DAY.

(** [datetime.max] is 9999-12-31T23:59:59.999999, ordinal day 3652059. *)
Definition MAX_ORDINAL : Z := 3652059.

Definition in_range (us : Z) : bool :=
  (0 <=? us) && (us <? MAX_ORDINAL * US_PER_DAY).

(** [d - delta]: [None] stands for the [OverflowError] Python raises when
    the result leaves [datetime.min .. datetime.max]. *)
Definition sub (d : datetime) (delta : Z) : option datetime :=
  if in_range (micros d - delta) then Some (mk_datetime (micros d - delta))
  else None.

#[global] Instance datetime_eq_dec : EqDecision datetime.
Proof. solve_decision. Defined.

End Datetime.
Export Datetime.

(** ** Values passed to the request layer *)

(** The values the client puts in a [params] dict. *)
Inductive pyval :=
| PStr (s : string)
| PInt (n : Z)
| PNone.

#[global] Instance pyval_eq_dec : EqDecision pyval.
Proof. solve_decision. Defined.

(** A dict literal, in insertion order. *)
Definition pydict := list (string * pyval).

Fixpoint dict_get (k : string) (d : pydict) : option pyval :=
  match d with
  | [] => None
  | (k', v) :: d' => if decide (k = k') then Some v else dict_get k d'
  end.

Inductive http_method := GET | POST.

#[global] Instance http_method_eq_dec : EqDecision http_method.
Proof. solve_decision. Defined.

(** One invocation of [self._request(method, path, params=..., data=...)]. *)
Record request_call := mk_call {
  call_method : http_method;
  call_path : string;
  call_params : option pydict;
  call_data : option string
}.

(** What leaves the process: the request after the request layer prepared it. *)
Record http_request := mk_http {
  h_method : http_method;
  h_url : string;
  h_credential : string;
  h_query : list (string * pyval);
  h_body : option string
}.

Inductive http_outcome :=
| Response (status : Z) (body : string)
| NetworkFailure.

(** One field violation of a pydantic [ValidationError]. *)
Record field_error := mk_field_error { loc : string; msg : string }.

#[global] Instance field_error_eq_dec : EqDecision field_error.
Proof. solve_decision. Defined.

(** ** The imported modules *)

(** [alitiq.enumerations.forecast_models]: the [ForecastModels] enumeration
    (its members in definition order, each with its [.value]) and the dict
    [FORECASTING_MODELS_TO_ALITIQ_MODEL_NAMING].  The client names one member,
    [ICON_EU]. *)
Class ForecastModelsModule := {
  ForecastModels : Type;
  ForecastModels_eq_dec :: EqDecision ForecastModels;
  ForecastModels_countable :: Countable ForecastModels;
  ICON_EU : ForecastModels;
  members : list ForecastModels;
  value : ForecastModels -> string;
  FORECASTING_MODELS_TO_ALITIQ_MODEL_NAMING : gmap ForecastModels string
}.

(** ** Exceptions and the monad of method bodies *)

Section Exceptions.
Context `{ForecastModelsModule}.

(** The exceptions of the client: those of Python and pydantic that the
    method bodies raise, those of the request layer, and
    [ConfigurationError], which the design documents name. *)
Inductive exn :=
| ValidationError (errors : list field_error)
| ValueError (message : string)
| KeyError (key : ForecastModels)
| AttributeError (message : string)
| OverflowError (message : string)
| TypeError (message : string)
| AuthenticationError
| RequestError (status : Z) (body : string)
| TransportError
| ConfigurationError (message : string)
| ParseError (message : string).

Inductive outcome (A : Type) :=
| Return (a : A)
| Raise (e : exn).

#[global] Arguments Return {A} a.
#[global] Arguments Raise {A} e.

(** The process state a method can observe or change. *)
Record world := mk_world {
  clock : datetime;
  calls : list request_call;
  wire : list http_request
}.

Definition Py (A : Type) : Type := world -> outcome A * world.

Definition ret {A} (a : A) : Py A := fun w => (Return a, w).

Definition raise {A} (e : exn) : Py A := fun w => (Raise e, w).

Definition bind {A B} (m : Py A) (k : A -> Py B) : Py B :=
  fun w =>
    match m w with
    | (Return a, w') => k a w'
    | (Raise e, w') => (Raise e, w')
    end.

(** [try: m  except ValidationError as e: handler e]; every other exception
    passes through. *)
Definition try_except_ValidationError {A}
    (m : Py A) (handler : list field_error -> Py A) : Py A :=
  fun w =>
    match m w with
    | (Raise (ValidationError e), w') => handler e w'
    | r => r
    end.

(** Lifting a pure call that may raise. *)
Definition lift {A} (o : outcome A) : Py A := fun w => (o, w).

End Exceptions.

Declare Scope py_scope.
Delimit Scope py_scope with py.
Notation "x <~ m ; k" := (bind m (fun x => k))
  (at level 20, m at level 100, k at level 200, only parsing) : py_scope.
Notation "' pat <~ m ; k" := (bind m (fun x => match x with pat => k end))
  (at level 20, pat pattern, m at level 100, k at level 200, only parsing) : py_scope.
Local Open Scope py_scope.

(** [alitiq.models.demand_forecast]: the pydantic model
    [EngineMeasurementForm] with its [.dict()] method, which returns the
    record as a Python dict or raises. *)
Class MeasurementModule `{ForecastModelsModule} := {
  EngineMeasurementForm : Type;
  FormDict : Type;
  dict : EngineMeasurementForm -> outcome FormDict
}.

(** The library calls of the client: [datetime.strftime], [repr] and [str]
    as used in messages, [json.dumps] on a list of record dicts, and
    [pandas.read_json(StringIO(text), orient=...)]. *)
Class Libraries `{MeasurementModule} := {
  strftime : datetime -> string -> string;
  repr : string -> string;
  str_ValidationError : list field_error -> string;
  json_dumps : list FormDict -> outcome string;
  DataFrame : Type;
  read_json : string -> string -> outcome DataFrame
}.

(** [alitiq.enumerations.services] and the constants of [alitiq.base],
    together with the network the requests go to. *)
Class Backend := {
  Services : Type;
  DEMAND_FORECAST : Services;
  service_scope : Services -> string;
  base_url : string;
  transport : http_request -> http_outcome
}.

(** ** The client *)

Section Client.
Context `{Libraries} `{Backend}.

(** The instance attributes set by [alitiqAPIBase.__init__(service, api_key)]. *)
Record alitiqAPIBase := mk_client {
  service : Services;
  api_key : string
}.

(** [alitiqDemandAPI.__init__]: [super().__init__(Services.DEMAND_FORECAST, api_key)]. *)
Definition alitiqDemandAPI (key : string) : alitiqAPIBase :=
  {| service := DEMAND_FORECAST; api_key := key |}.

(** *** The request layer *)

(** Modelled from the spec: the part of [alitiqAPIBase._request] that leaves
    out the query parameters whose value is [None]. *)
Definition drop_none (params : pydict) : list (string * pyval) :=
  filter (fun kv => kv.2 <> PNone) params.

(** Modelled from the spec: the part of [alitiqAPIBase._request] that builds
    the outgoing request from the base address, the service scope, the path
    and the credential. *)
Definition prepare (self : alitiqAPIBase) (c : request_call) : http_request :=
  {| h_method := call_method c;
     h_url := base_url +:+ "/" +:+ service_scope (service self) +:+ "/" +:+ call_path c;
     h_credential := api_key self;
     h_query := drop_none (default [] (call_params c));
     h_body := call_data c |}.

(** Modelled from the spec: the status classes of [alitiqAPIBase._request]. *)
Definition is_success (status : Z) : bool := (200 <=? status) && (status <? 300).

Definition is_unauthorized (status : Z) : bool := (status =? 401) || (status =? 403).

(** Modelled from the spec: [alitiqAPIBase._request] of [alitiq.base], which
    is not among the sources.  One HTTP round trip: the URL is the base
    address, the service scope and the path; the credential is attached;
    query parameters whose value is [None] are left out; the body of the
    response is returned as text.  An unauthorized or forbidden status raises
    [AuthenticationError], any other status outside 2xx raises [RequestError]
    with the status and the body, a network failure raises [TransportError].
    The call and the prepared request are recorded in the world. *)
Definition _request (self : alitiqAPIBase) (method : http_method) (path : string)
    (params : option pydict) (data : option string) : Py string :=
  fun w =>
    let c := mk_call method path params data in
    let req := prepare self c in
    let w' := {| clock := clock w; calls := calls w ++ [c]; wire := wire w ++ [req] |} in
    match transport req with
    | NetworkFailure => (Raise TransportError, w')
    | Response status body =>
        if is_unauthorized status then (Raise AuthenticationError, w')
        else if is_success status then (Return body, w')
        else (Raise (RequestError status body), w')
    end.

(** *** Python primitives used by the methods *)

(** [datetime.now()] *)
Definition datetime_now : Py datetime := fun w => (Return (clock w), w).

(** [d - timedelta(...)] *)
Definition datetime_sub (d : datetime) (delta : Z) : Py datetime :=
  match Datetime.sub d delta with
  | Some d' => ret d'
  | None => raise (OverflowError "date value out of range")
  end.

(** [x.strftime(fmt)] where [x] may be [None]. *)
Definition attr_strftime (x : option datetime) (fmt : string) : Py string :=
  match x with
  | Some d => ret (strftime d fmt)
  | None => raise (AttributeError "'NoneType' object has no attribute 'strftime'")
  end.

(** The argument [forecast_model : Union[str, ForecastModels]]. *)
Inductive model_arg :=
| ByValue (s : string)
| ByMember (m : ForecastModels).

(** [ForecastModels(x)]: a member is returned as it is, a string is looked up
    among the members' values. *)
Definition ForecastModels_call (x : model_arg) : Py ForecastModels :=
  match x with
  | ByMember m => ret m
  | ByValue s =>
      match List.find (fun m => bool_decide (value m = s)) members with
      | Some m => ret m
      | None => raise (ValueError (repr s +:+ " is not a valid ForecastModels"))
      end
  end.

(** [FORECASTING_MODELS_TO_ALITIQ_MODEL_NAMING[m]] *)
Definition naming_getitem (m : ForecastModels) : Py string :=
  match FORECASTING_MODELS_TO_ALITIQ_MODEL_NAMING !! m with
  | Some s => ret s
  | None => raise (KeyError m)
  end.

(** [[f(x) for x in l]], evaluated left to right. *)
Fixpoint comprehension {A B} (f : A -> Py B) (l : list A) : Py (list B) :=
  match l with
  | [] => ret []
  | x :: l' => y <~ f x ; ys <~ comprehension f l' ; ret (y :: ys)
  end.

Definition DATE_FORMAT : string := "%Y-%m-%dT%H:%M:%S".

(** *** [get_measurements] *)

Definition get_measurements (self : alitiqAPIBase) (location_id : string)
    (start_date end_date : option datetime) : Py DataFrame :=
  '(start_date, end_date) <~
    match end_date with
    | None =>
        end_date <~ datetime_now ;
        start_date <~ datetime_sub end_date (timedelta 2) ;
        ret (Some start_date, end_date)
    | Some e => ret (start_date, e)
    end ;
  start_s <~ attr_strftime start_date DATE_FORMAT ;
  end_s <~ attr_strftime (Some end_date) DATE_FORMAT ;
  body <~ _request self GET "measurement/inspect"
            (Some [("id_location", PStr location_id);
                   ("response_format", PStr "json");
                   ("start_date", PStr start_s);
                   ("end_date", PStr end_s)])
            None ;
  lift (read_json body "split").

(** *** [post_measurements] *)

(** The argument [measurements : Union[EngineMeasurementForm, List[EngineMeasurementForm]]]. *)
Inductive measurements_arg :=
| Single (m : EngineMeasurementForm)
| Many (ms : list EngineMeasurementForm).

(** [if not isinstance(measurements, list): measurements = [measurements]] *)
Definition as_list (measurements : measurements_arg) : list EngineMeasurementForm :=
  match measurements with
  | Single m => [m]
  | Many ms => ms
  end.

Definition post_measurements (self : alitiqAPIBase) (measurements : measurements_arg)
    : Py string :=
  let measurements := as_list measurements in
  validated_data <~
    try_except_ValidationError
      (comprehension (fun measurement => lift (dict measurement)) measurements)
      (fun e => raise (ValueError ("Validation failed for input data: "
                                   +:+ str_ValidationError e))) ;
  data <~ lift (json_dumps validated_data) ;
  _request self POST "measurement/add" None (Some data).

(** *** [get_forecast] *)

(** [if forecast_model is None: ... else: forecast_model = ForecastModels(forecast_model)] *)
Definition resolve_model (forecast_model : option model_arg) : Py ForecastModels :=
  match forecast_model with
  | None => ret ICON_EU
  | Some x => ForecastModels_call x
  end.

(** [dt_calc.strftime("%Y-%m-%dT%H:%M:%S") if dt_calc else None]; a datetime
    is always true. *)
Definition dt_calc_param (dt_calc : option datetime) : pyval :=
  match dt_calc with
  | Some d => PStr (strftime d DATE_FORMAT)
  | None => PNone
  end.

(** The keyword defaults of the signature ([power_measure="kW"],
    [timezone="UTC"], [interval_in_minutes=15], [window_boundary="end"]) are
    the caller's: the arguments are explicit here. *)
Definition get_forecast (self : alitiqAPIBase) (location_id : string)
    (forecast_model : option model_arg) (dt_calc : option datetime)
    (power_measure timezone : string) (interval_in_minutes : Z)
    (window_boundary : string) : Py DataFrame :=
  forecast_model <~ resolve_model forecast_model ;
  weather_model <~ naming_getitem forecast_model ;
  body <~ _request self GET "forecast"
            (Some [("id_location", PStr location_id);
                   ("response_format", PStr "json");
                   ("weather_model", PStr weather_model);
                   ("power_measure", PStr power_measure);
                   ("timezone", PStr timezone);
                   ("interval_in_minutes", PInt interval_in_minutes);
                   ("window_boundary", PStr window_boundary);
                   ("dt_calc", dt_calc_param dt_calc)])
            None ;
  lift (read_json body "split").

(** *** Vocabulary of the statements *)

(** The call [get_measurements] makes to the request layer. *)
Definition measurements_call (location_id start_s end_s : string) : request_call :=
  mk_call GET "measurement/inspect"
    (Some [("id_location", PStr location_id);
           ("response_format", PStr "json");
           ("start_date", PStr start_s);
           ("end_date", PStr end_s)])
    None.

(** The call [get_forecast] makes to the request layer. *)
Definition forecast_call (location_id weather_model power_measure timezone : string)
    (interval_in_minutes : Z) (window_boundary : string) (dt_calc : pyval)
    : request_call :=
  mk_call GET "forecast"
    (Some [("id_location", PStr location_id);
           ("response_format", PStr "json");
           ("weather_model", PStr weather_model);
           ("power_measure", PStr power_measure);
           ("timezone", PStr timezone);
           ("interval_in_minutes", PInt interval_in_minutes);
           ("window_boundary", PStr window_boundary);
           ("dt_calc", dt_calc)])
    None.

(** The call [post_measurements] makes to the request layer. *)
Definition add_call (data : string) : request_call :=
  mk_call POST "measurement/add" None (Some data).

(** The network answers the call [c] of client [self] with a success status
    and the text [body]. *)
Definition delivers (self : alitiqAPIBase) (c : request_call) (body : string) : Prop :=
  exists status,
    transport (prepare self c) = Response status body
    /\ is_unauthorized status = false /\ is_success status = true.

(** *** The three methods as one family *)

(** A call of one of the public methods with its arguments. *)
Inductive operation :=
| GetMeasurements (location_id : string) (start_date end_date : option datetime)
| PostMeasurements (measurements : measurements_arg)
| GetForecast (location_id : string) (forecast_model : option model_arg)
    (dt_calc : option datetime) (power_measure timezone : string)
    (interval_in_minutes : Z) (window_boundary : string).

(** What a method hands back: a table, or the text of the response. *)
Inductive response :=
| Table (t : DataFrame)
| Body (text : string).

Definition perform (self : alitiqAPIBase) (op : operation) : Py response :=
  match op with
  | GetMeasurements location_id start_date end_date =>
      t <~ get_measurements self location_id start_date end_date ; ret (Table t)
  | PostMeasurements measurements =>
      text <~ post_measurements self measurements ; ret (Body text)
  | GetForecast location_id forecast_model dt_calc power_measure timezone
      interval_in_minutes window_boundary =>
      t <~ get_forecast self location_id forecast_model dt_calc power_measure timezone
             interval_in_minutes window_boundary ;
      ret (Table t)
  end.

(** The method reads [datetime.now()]: only [get_measurements] without
    [end_date] does. *)
Definition reads_clock (op : operation) : bool :=
  match op with
  | GetMeasurements _ _ None => true
  | _ => false
  end.

Definition with_clock (t : datetime) (w : world) : world :=
  {| clock := t; calls := calls w; wire := wire w |}.

(** A computation that does not read the clock: with another clock it gives
    the same outcome and makes the same changes. *)
Definition clock_blind {A} (m : Py A) : Prop :=
  forall t w, m (with_clock t w) = ((m w).1, with_clock t (m w).2).

Definition param_keys (c : request_call) : option (list string) :=
  (fun ps : pydict => ps.*1) <$> call_params c.

(** The calls the client can make: the two GETs with their parameter names
    and [response_format] "json", and the POST with a body and no
    parameters. *)
Definition known_call (c : request_call) : bool :=
  match call_method c, call_data c with
  | GET, None =>
      (bool_decide (call_path c = "measurement/inspect")
       && bool_decide (param_keys c
                       = Some ["id_location"; "response_format"; "start_date"; "end_date"])
       || bool_decide (call_path c = "forecast")
          && bool_decide (param_keys c
                          = Some ["id_location"; "response_format"; "weather_model";
                                  "power_measure"; "timezone"; "interval_in_minutes";
                                  "window_boundary"; "dt_calc"]))
      && bool_decide (dict_get "response_format" (default [] (call_params c))
                      = Some (PStr "json"))
  | POST, Some _ =>
      bool_decide (call_path c = "measurement/add") && bool_decide (call_params c = None)
  | _, _ => false
  end.

Definition is_ValidationError (e : exn) : bool :=
  match e with
  | ValidationError _ => true
  | _ => false
  end.

End Client.

(** ** A concrete installation

    An instance of every interface, on which the methods run: two forecast
    models of which one has no entry in the naming table, a measurement
    record with two required fields, and a network that answers every
    authorised request. *)

Module Fixture.

Inductive model := ModelIconEu | ModelUnmapped.

#[export] Instance model_eq_dec : EqDecision model.
Proof. solve_decision. Defined.

#[export] Instance model_countable : Countable model.
Proof.
  refine (inj_countable'
            (fun m => match m with ModelIconEu => 0%nat | ModelUnmapped => 1%nat end)
            (fun n => match n with 0%nat => ModelIconEu | _ => ModelUnmapped end) _).
  intros []; reflexivity.
Defined.

#[export] Instance forecast_models : ForecastModelsModule := {|
  ForecastModels := model;
  ICON_EU := ModelIconEu;
  members := [ModelIconEu; ModelUnmapped];
  value := fun m => match m with
                    | ModelIconEu => "icon_eu"
                    | ModelUnmapped => "unmapped"
                    end;
  FORECASTING_MODELS_TO_ALITIQ_MODEL_NAMING := {[ ModelIconEu := "provider_icon_eu" ]}
|}.

(** A measurement record: timestamp, location identifier, value. *)
Record form := mk_form {
  form_timestamp : string;
  form_location : string;
  form_value : Z
}.

(** Modelled from the spec: the schema of [EngineMeasurementForm], whose
    module is not among the sources.  Timestamp and location identifier are
    required; the list holds what validating a record reports, empty for a
    valid one.  pydantic validates when a record is built from input; a
    record built without validation, or changed afterwards, can violate the
    schema. *)
Definition violations (m : form) : list field_error :=
  (if decide (form_timestamp m = "") then [mk_field_error "timestamp" "field required"] else [])
  ++ (if decide (form_location m = "") then [mk_field_error "location" "field required"] else []).

(** [.dict()] of a pydantic model: the fields as a dict.  It serialises and
    does not validate. *)
Definition form_dict (m : form) : outcome pydict :=
  Return [("timestamp", PStr (form_timestamp m));
          ("location", PStr (form_location m));
          ("value", PInt (form_value m))].

#[export] Instance measurement : MeasurementModule := {|
  EngineMeasurementForm := form;
  FormDict := pydict;
  dict := form_dict
|}.

(** Decimal digits, zero padded to [width]. *)
Definition digits (width : nat) (n : Z) : string :=
  let s := pretty n in
  String.concat "" (replicate (width - String.length s) "0") +:+ s.

(** The civil date of a day count from 0001-01-01. *)
Definition civil (days : Z) : Z * Z * Z :=
  let z := days + 306 in
  let era := z / 146097 in
  let doe := z mod 146097 in
  let yoe := (doe - doe / 1460 + doe / 36524 - doe / 146096) / 365 in
  let doy := doe - (365 * yoe + yoe / 4 - yoe / 100) in
  let mp := (5 * doy + 2) / 153 in
  let d := doy - (153 * mp + 2) / 5 + 1 in
  let m := if mp <? 10 then mp + 3 else mp - 9 in
  let y := yoe + era * 400 + (if m <=? 2 then 1 else 0) in
  (y, m, d).

(** [strftime] for the one format the client uses; the microseconds are
    dropped. *)
Definition iso_seconds (d : datetime) (fmt : string) : string :=
  let '(y, m, dd) := civil (micros d / US_PER_DAY) in
  let secs := (micros d mod US_PER_DAY) / 1000000 in
  digits 4 y +:+ "-" +:+ digits 2 m +:+ "-" +:+ digits 2 dd +:+ "T"
  +:+ digits 2 (secs / 3600) +:+ ":" +:+ digits 2 (secs mod 3600 / 60)
  +:+ ":" +:+ digits 2 (secs mod 60).

Definition render_value (v : pyval) : string :=
  match v with
  | PStr s => "'" +:+ s +:+ "'"
  | PInt n => pretty n
  | PNone => "null"
  end.

Definition render_dict (d : pydict) : string :=
  "{" +:+ String.concat ", " (map (fun kv => "'" +:+ kv.1 +:+ "': " +:+ render_value kv.2) d)
  +:+ "}".

Definition render_list (ds : list pydict) : string :=
  "[" +:+ String.concat ", " (map render_dict ds) +:+ "]".

Definition render_errors (errs : list field_error) : string :=
  String.concat "; " (map (fun e => loc e +:+ ": " +:+ msg e) errs).

(** A decoded table, kept as the orientation and the text it came from. *)
Record frame := mk_frame { frame_orient : string; frame_text : string }.

Definition decode (text orient : string) : outcome frame :=
  if decide (text = "") then Raise (ValueError "Expected object or value")
  else Return (mk_frame orient text).

#[export] Instance libraries : Libraries := {|
  strftime := iso_seconds;
  repr := fun s => "'" +:+ s +:+ "'";
  str_ValidationError := render_errors;
  json_dumps := fun ds => Return (render_list ds);
  DataFrame := frame;
  read_json := decode
|}.

Inductive scope := Demand.

Definition network (req : http_request) : http_outcome :=
  if decide (h_credential req = "") then Response 401 "unauthorized"
  else match h_method req with
       | POST => Response 200 "accepted"
       | GET => Response 200 "{index:[0,1],columns:[a],data:[[1],[2]]}"
       end.

#[export] Instance backend : Backend := {|
  Services := scope;
  DEMAND_FORECAST := Demand;
  service_scope := fun _ => "demand";
  base_url := "https://api.example";
  transport := network
|}.

Definition client : alitiqAPIBase := alitiqDemandAPI "secret".

(** 2024-03-01T12:00:00.250000 *)
Definition noon : datetime := mk_datetime ((738945 * 86400 + 12 * 3600) * 1000000 + 250000).

Definition start : world := mk_world noon [] [].

Definition good : EngineMeasurementForm := mk_form "2024-03-01T11:45:00" "loc-1" 42.
Definition good' : EngineMeasurementForm := mk_form "2024-03-01T12:00:00" "loc-1" 43.
Definition no_location : EngineMeasurementForm := mk_form "2024-03-01T11:45:00" "" 7.
Definition no_timestamp : EngineMeasurementForm := mk_form "" "loc-2" 8.

End Fixture.

(** ** The nox sessions

    [noxfile.py]: three sessions, each installing a tool and running it on
    the targets.  A command that fails makes nox abort the session; whether a
    command succeeds is the environment's. *)

Module Noxfile.

Inductive command :=
| Install (packages : list string)
| Run (argv : list string).

Section Sessions.
Variable succeeds : command -> bool.

(** A session body: from the commands issued so far to whether the session
    is still alive and the commands issued. *)
Definition Nox : Type := list command -> bool * list command.

(** [session.install(...)] and [session.run(...)] *)
Definition issue (c : command) : Nox := fun log => (succeeds c, log ++ [c]).

Definition and_then (first second : Nox) : Nox :=
  fun log =>
    match first log with
    | (true, log') => second log'
    | (false, log') => (false, log')
    end.

(** [locations = "alitiq",] *)
Definition locations : list string := ["alitiq"].

(** [x or y] on sequences: an empty [x] is false. *)
Definition py_or (x y : list string) : list string :=
  match x with
  | [] => y
  | _ => x
  end.

Definition black (posargs : list string) : Nox :=
  let args := py_or posargs locations in
  and_then (issue (Install ["black"])) (issue (Run ("black" :: args))).

Definition lint (posargs : list string) : Nox :=
  let args := py_or posargs locations in
  and_then
    (issue (Install ["flake8"; "flake8-black"; "flake8-bugbear"; "flake8-docstrings"]))
    (issue (Run ("flake8" :: args))).

Definition isort (posargs : list string) : Nox :=
  let args := py_or posargs locations in
  and_then (issue (Install ["isort"])) (issue (Run ("isort" :: args))).

(** The sessions the file registers, in order. *)
Definition sessions : list (list string -> Nox) := [black; lint; isort].

End Sessions.

End Noxfile.

(** ** A second installation, with failures

    Records whose [.dict()] raises something else than a validation error,
    and an encoder that refuses some values. *)

Module Brittle.
Import Fixture.

Definition brittle_dict (m : form) : outcome pydict :=
  if form_value m <? 0 then Raise (TypeError "unsupported operand") else form_dict m.

#[export] Instance brittle_measurement : MeasurementModule := {|
  EngineMeasurementForm := form;
  FormDict := pydict;
  dict := brittle_dict
|}.

Definition small_value (kv : string * pyval) : bool :=
  match kv.2 with
  | PInt n => n <=? 1000
  | _ => true
  end.

Definition strict_dumps (ds : list pydict) : outcome string :=
  if forallb (forallb small_value) ds then Return (render_list ds)
  else Raise (TypeError "Object is not JSON serializable").

#[export] Instance brittle_libraries : @Libraries forecast_models brittle_measurement := {|
  strftime := iso_seconds;
  repr := fun s => "'" +:+ s +:+ "'";
  str_ValidationError := render_errors;
  json_dumps := strict_dumps;
  DataFrame := frame;
  read_json := decode
|}.

Definition brittle_client : @alitiqAPIBase backend := alitiqDemandAPI "secret".

Definition negative : @EngineMeasurementForm forecast_models brittle_measurement :=
  mk_form "2024-03-01T11:45:00" "loc-1" (-1).
Definition modest : @EngineMeasurementForm forecast_models brittle_measurement :=
  mk_form "2024-03-01T11:45:00" "loc-1" 42.
Definition huge : @EngineMeasurementForm forecast_models brittle_measurement :=
  mk_form "2024-03-01T12:00:00" "loc-1" 5000.

End Brittle.

(** ** Properties *)

Section Properties.
Context `{Libraries} `{Backend}.

(** *** The request layer records exactly one call *)

Lemma request_calls self method path params data w :
  calls (_request self method path params data w).2
  = calls w ++ [mk_call method path params data].
Proof.
  unfold _request.
  destruct (transport _) as [status body|]; [|reflexivity].
  destruct (is_unauthorized status); [reflexivity|].
  destruct (is_success status); reflexivity.
Qed.

Lemma request_wire self method path params data w :
  wire (_request self method path params data w).2
  = wire w ++ [prepare self (mk_call method path params data)].
Proof.
  unfold _request.
  destruct (transport _) as [status body|]; [|reflexivity].
  destruct (is_unauthorized status); [reflexivity|].
  destruct (is_success status); reflexivity.
Qed.

Lemma request_clock self method path params data w :
  clock (_request self method path params data w).2 = clock w.
Proof.
  unfold _request.
  destruct (transport _) as [status body|]; [|reflexivity].
  destruct (is_unauthorized status); [reflexivity|].
  destruct (is_success status); reflexivity.
Qed.

(** A request followed by the decoding of its body leaves the world as the
    request left it. *)
Lemma request_then_decode_world self method path params data orient w :
  (bind (_request self method path params data)
        (fun body => lift (read_json body orient)) w).2
  = (_request self method path params data w).2.
Proof.
  unfold bind, lift.
  destruct (_request self method path params data w) as [[body|e] w']; reflexivity.
Qed.

(** *** [get_measurements] *)

(** With both dates in hand the method is one request and one decoding. *)
Lemma get_measurements_dates self loc s e w :
  get_measurements self loc (Some s) (Some e) w
  = bind (_request self GET "measurement/inspect"
            (call_params (measurements_call loc (strftime s DATE_FORMAT)
                                            (strftime e DATE_FORMAT)))
            None)
         (fun body => lift (read_json body "split")) w.
Proof. reflexivity. Qed.

(** Without [end_date] the dates are those of the clock, whatever
    [start_date] was. *)
Lemma get_measurements_no_end self loc start w d :
  Datetime.sub (clock w) (timedelta 2) = Some d ->
  get_measurements self loc start None w
  = get_measurements self loc (Some d) (Some (clock w)) w.
Proof.
  intros Hd. unfold get_measurements, bind, datetime_now, datetime_sub.
  rewrite Hd. reflexivity.
Qed.

(** When the clock is within two days of [datetime.min] the subtraction
    overflows and nothing is requested. *)
Lemma get_measurements_no_end_overflow self loc start w :
  Datetime.sub (clock w) (timedelta 2) = None ->
  get_measurements self loc start None w
  = (Raise (OverflowError "date value out of range"), w).
Proof.
  intros Hd. unfold get_measurements, bind, datetime_now, datetime_sub.
  rewrite Hd. reflexivity.
Qed.

Lemma sub_two_days now :
  timedelta 2 <= micros now < MAX_ORDINAL * US_PER_DAY ->
  Datetime.sub now (timedelta 2)
  = Some (mk_datetime (micros now - 2 * 86400 * 1000000)).
Proof.
  intros Hnow. unfold Datetime.sub, in_range.
  replace (micros now - timedelta 2) with (micros now - 2 * 86400 * 1000000)
    by (unfold timedelta, US_PER_DAY; lia).
  assert (Hlo : (0 <=? micros now - 2 * 86400 * 1000000) = true).
  { apply Z.leb_le. unfold timedelta, US_PER_DAY in Hnow. lia. }
  assert (Hhi : (micros now - 2 * 86400 * 1000000 <? MAX_ORDINAL * US_PER_DAY) = true).
  { apply Z.ltb_lt. lia. }
  rewrite Hlo, Hhi. reflexivity.
Qed.

(** C2: when [end_date] is omitted the request carries the current moment as
    [end_date], and when [start_date] is omitted too it carries the moment
    exactly two days (2 * 86400 * 10^6 microseconds) earlier as [start_date].
    The clock is a datetime from which two days can be subtracted. *)
Theorem get_measurements_default_dates self loc w :
  timedelta 2 <= micros (clock w) < MAX_ORDINAL * US_PER_DAY ->
  (forall start, exists start_s,
      calls (get_measurements self loc start None w).2
      = calls w ++ [measurements_call loc start_s (strftime (clock w) DATE_FORMAT)])
  /\ calls (get_measurements self loc None None w).2
     = calls w ++ [measurements_call loc
                     (strftime (mk_datetime (micros (clock w) - 2 * 86400 * 1000000))
                               DATE_FORMAT)
                     (strftime (clock w) DATE_FORMAT)].
Proof.
  intros Hnow. pose proof (sub_two_days _ Hnow) as Hd.
  split.
  - intros start. eexists.
    rewrite (get_measurements_no_end _ _ _ _ _ Hd), get_measurements_dates.
    rewrite request_then_decode_world. apply request_calls.
  - rewrite (get_measurements_no_end _ _ _ _ _ Hd), get_measurements_dates.
    rewrite request_then_decode_world. apply request_calls.
Qed.

(** C9: with [end_date] given and [start_date] omitted the method raises the
    [AttributeError] of [None.strftime] and leaves the world as it was: no
    request is made. *)
Theorem get_measurements_end_without_start self loc e w :
  get_measurements self loc None (Some e) w
  = (Raise (AttributeError "'NoneType' object has no attribute 'strftime'"), w).
Proof. reflexivity. Qed.

(** C10: with [end_date] omitted a supplied [start_date] plays no part: the
    request carries the clock minus two days as [start_date], and the whole
    run is the run of the call without dates. *)
Theorem get_measurements_start_ignored self loc s w :
  timedelta 2 <= micros (clock w) < MAX_ORDINAL * US_PER_DAY ->
  calls (get_measurements self loc (Some s) None w).2
  = calls w ++ [measurements_call loc
                  (strftime (mk_datetime (micros (clock w) - 2 * 86400 * 1000000))
                            DATE_FORMAT)
                  (strftime (clock w) DATE_FORMAT)]
  /\ get_measurements self loc (Some s) None w = get_measurements self loc None None w.
Proof.
  intros Hnow. pose proof (sub_two_days _ Hnow) as Hd.
  split.
  - rewrite (get_measurements_no_end _ _ _ _ _ Hd), get_measurements_dates.
    rewrite request_then_decode_world. apply request_calls.
  - rewrite !(get_measurements_no_end _ _ _ _ _ Hd). reflexivity.
Qed.

(** *** [post_measurements] *)

Lemma comprehension_all_return (ms : list EngineMeasurementForm) ds w :
  Forall2 (fun m d => dict m = Return d) ms ds ->
  comprehension (fun measurement => lift (dict measurement)) ms w = (Return ds, w).
Proof.
  induction 1 as [|m d ms ds Hm _ IH]; [reflexivity|].
  cbn [comprehension]. unfold bind at 1, lift at 1. rewrite Hm.
  unfold bind at 1. rewrite IH. reflexivity.
Qed.

(** The comprehension stops at the first record whose [.dict()] raises. *)
Lemma comprehension_first_raise (pre : list EngineMeasurementForm) ds m rest e w :
  Forall2 (fun x d => dict x = Return d) pre ds ->
  dict m = Raise e ->
  comprehension (fun measurement => lift (dict measurement)) (pre ++ m :: rest) w
  = (Raise e, w).
Proof.
  intros Hpre Hm. induction Hpre as [|x d pre ds Hx _ IH]; cbn [app comprehension].
  - unfold bind, lift. rewrite Hm. reflexivity.
  - unfold bind at 1, lift at 1. rewrite Hx. unfold bind at 1. rewrite IH. reflexivity.
Qed.

(** The handler of the [try]: were the [.dict()] of some record to raise a
    validation error, the records before it having their dicts, the method
    would raise [ValueError] with that one report in its message and make no
    request. *)
Lemma post_measurements_handler self measurements pre ds m errs rest w :
  as_list measurements = pre ++ m :: rest ->
  Forall2 (fun x d => dict x = Return d) pre ds ->
  dict m = Raise (ValidationError errs) ->
  post_measurements self measurements w
  = (Raise (ValueError ("Validation failed for input data: " +:+ str_ValidationError errs)),
     w).
Proof.
  intros Hlist Hpre Hm.
  unfold post_measurements. rewrite Hlist.
  unfold bind at 1, try_except_ValidationError.
  rewrite (comprehension_first_raise _ _ _ _ _ _ Hpre Hm). reflexivity.
Qed.

(** C6: for a valid input, a single record is treated as the one-element
    list, and the one request made carries [json.dumps] of the records'
    dicts, one per input record and in the order of the input. *)
Theorem post_measurements_valid self measurements ds text w :
  Forall2 (fun m d => dict m = Return d) (as_list measurements) ds ->
  json_dumps ds = Return text ->
  (forall m, as_list (Single m) = [m])
  /\ calls (post_measurements self measurements w).2 = calls w ++ [add_call text]
  /\ post_measurements self measurements w
     = _request self POST "measurement/add" None (Some text) w.
Proof.
  intros Hvalid Hdumps.
  assert (Hrun : post_measurements self measurements w
                 = _request self POST "measurement/add" None (Some text) w).
  { unfold post_measurements.
    unfold bind at 1, try_except_ValidationError.
    rewrite (comprehension_all_return _ _ _ Hvalid).
    unfold bind, lift. rewrite Hdumps. reflexivity. }
  split; [reflexivity|]. split; [|exact Hrun].
  rewrite Hrun. apply request_calls.
Qed.

(** *** [get_forecast] *)

(** Resolving the model reads and writes nothing. *)
Lemma resolve_model_world fm w : (resolve_model fm w).2 = w.
Proof.
  destruct fm as [[s|m]|]; cbn; [|reflexivity..].
  destruct (List.find _ members); reflexivity.
Qed.

Lemma find_value_none s (l : list ForecastModels) :
  (forall m, m ∈ l -> value m <> s) ->
  List.find (fun m => bool_decide (value m = s)) l = None.
Proof.
  induction l as [|m l IH]; intros Hl; [reflexivity|].
  cbn. rewrite bool_decide_eq_false_2 by (apply Hl; left).
  apply IH. intros m' Hm'. apply Hl. right. exact Hm'.
Qed.

(** The lookup finds nothing exactly when no member has the value. *)
Lemma no_member_valued (s : string) :
  List.find (fun m => bool_decide (value m = s)) members = None ->
  forall m, m ∈ members -> value m <> s.
Proof.
  intros Hfind m Hm Hv.
  apply list_elem_of_In in Hm.
  pose proof (find_none _ _ Hfind m Hm) as Hb. cbn in Hb.
  apply bool_decide_eq_false_1 in Hb. exact (Hb Hv).
Qed.

(** Once the model is resolved to [m] and the table maps [m] to [name], the
    method is one request and one decoding. *)
Lemma get_forecast_resolved self loc fm dt pm tz iv wb w m name :
  resolve_model fm w = (Return m, w) ->
  FORECASTING_MODELS_TO_ALITIQ_MODEL_NAMING !! m = Some name ->
  get_forecast self loc fm dt pm tz iv wb w
  = bind (_request self GET "forecast"
            (call_params (forecast_call loc name pm tz iv wb (dt_calc_param dt)))
            None)
         (fun body => lift (read_json body "split")) w.
Proof.
  intros Hm Hname. unfold get_forecast.
  unfold bind at 1. rewrite Hm.
  unfold bind at 1, naming_getitem. rewrite Hname. reflexivity.
Qed.

(** Otherwise it raises with the world as it was. *)
Lemma get_forecast_shape self loc fm dt pm tz iv wb w :
  (exists e, get_forecast self loc fm dt pm tz iv wb w = (Raise e, w))
  \/ (exists name,
        get_forecast self loc fm dt pm tz iv wb w
        = bind (_request self GET "forecast"
                  (call_params (forecast_call loc name pm tz iv wb (dt_calc_param dt)))
                  None)
               (fun body => lift (read_json body "split")) w).
Proof.
  pose proof (resolve_model_world fm w) as Hw.
  destruct (resolve_model fm w) as [[m|e] w'] eqn:Hm; cbn in Hw; subst w'.
  - destruct (FORECASTING_MODELS_TO_ALITIQ_MODEL_NAMING !! m) as [name|] eqn:Hname.
    + right. exists name. eapply get_forecast_resolved; eassumption.
    + left. exists (KeyError m). unfold get_forecast.
      unfold bind at 1. rewrite Hm.
      unfold bind at 1, naming_getitem. rewrite Hname. reflexivity.
  - left. exists e. unfold get_forecast. unfold bind at 1. rewrite Hm. reflexivity.
Qed.

(** C3, as the code has it: a string that is the value of no member makes
    [ForecastModels(...)] raise [ValueError]; the method fails with it, makes
    no request, and does not fall back to the default model. *)
Theorem get_forecast_unknown_string self loc s dt pm tz iv wb w :
  (forall m, m ∈ members -> value m <> s) ->
  get_forecast self loc (Some (ByValue s)) dt pm tz iv wb w
  = (Raise (ValueError (repr s +:+ " is not a valid ForecastModels")), w).
Proof.
  intros Hs. unfold get_forecast, bind, resolve_model, ForecastModels_call.
  rewrite (find_value_none _ _ Hs). reflexivity.
Qed.

(** C4, as the code has it: when the table has no entry for the model, the
    subscript raises [KeyError] with the model as key; the method fails with
    it and makes no request. *)
Theorem get_forecast_missing_entry self loc m dt pm tz iv wb w :
  FORECASTING_MODELS_TO_ALITIQ_MODEL_NAMING !! m = None ->
  get_forecast self loc (Some (ByMember m)) dt pm tz iv wb w = (Raise (KeyError m), w).
Proof.
  intros Hm. unfold get_forecast, bind, resolve_model, ForecastModels_call, naming_getitem.
  cbn. rewrite Hm. reflexivity.
Qed.

(** C5: with [forecast_model] omitted the method runs as with
    [ForecastModels.ICON_EU], and the request carries as [weather_model] the
    name the table gives for [ICON_EU]. *)
Theorem get_forecast_default_model self loc dt pm tz iv wb w name :
  FORECASTING_MODELS_TO_ALITIQ_MODEL_NAMING !! ICON_EU = Some name ->
  calls (get_forecast self loc None dt pm tz iv wb w).2
  = calls w ++ [forecast_call loc name pm tz iv wb (dt_calc_param dt)]
  /\ dict_get "weather_model"
       (default [] (call_params (forecast_call loc name pm tz iv wb (dt_calc_param dt))))
     = Some (PStr name)
  /\ get_forecast self loc None dt pm tz iv wb w
     = get_forecast self loc (Some (ByMember ICON_EU)) dt pm tz iv wb w.
Proof.
  intros Hname. split; [|split; reflexivity].
  rewrite (get_forecast_resolved _ _ None _ _ _ _ _ _ ICON_EU name eq_refl Hname).
  rewrite request_then_decode_world. apply request_calls.
Qed.

(** *** What reaches the wire *)

Lemma elem_of_drop_none (params : pydict) k v :
  (k, v) ∈ drop_none params <-> (k, v) ∈ params /\ v <> PNone.
Proof.
  unfold drop_none. rewrite list_elem_of_filter. cbn. tauto.
Qed.

(** The prepared request of [get_forecast]: [dt_calc] is there exactly when
    a calculation time was given. *)
Lemma forecast_query self loc name pm tz iv wb dt :
  h_query (prepare self (forecast_call loc name pm tz iv wb (dt_calc_param dt)))
  = [("id_location", PStr loc); ("response_format", PStr "json");
     ("weather_model", PStr name); ("power_measure", PStr pm);
     ("timezone", PStr tz); ("interval_in_minutes", PInt iv);
     ("window_boundary", PStr wb)]
    ++ match dt with
       | Some d => [("dt_calc", PStr (strftime d DATE_FORMAT))]
       | None => []
       end.
Proof. destruct dt; reflexivity. Qed.

(** C7: the request layer puts on the wire exactly the parameters whose
    value is not [None]; so a [get_forecast] without calculation time sends
    no [dt_calc] at all, and one with a calculation time sends it
    formatted. *)
Theorem none_params_omitted self :
  (forall method path params data w,
      wire (_request self method path params data w).2
      = wire w ++ [prepare self (mk_call method path params data)]
      /\ forall k v,
           (k, v) ∈ h_query (prepare self (mk_call method path params data))
           <-> (k, v) ∈ default [] params /\ v <> PNone)
  /\ (forall loc fm pm tz iv wb w,
        exists new,
          wire (get_forecast self loc fm None pm tz iv wb w).2 = wire w ++ new
          /\ Forall (fun req => forall v, ("dt_calc", v) ∉ h_query req) new)
  /\ (forall loc fm d pm tz iv wb w,
        exists new,
          wire (get_forecast self loc fm (Some d) pm tz iv wb w).2 = wire w ++ new
          /\ Forall (fun req => ("dt_calc", PStr (strftime d DATE_FORMAT)) ∈ h_query req)
                    new).
Proof.
  split; [|split].
  - intros method path params data w. split; [apply request_wire|].
    intros k v. apply elem_of_drop_none.
  - intros loc fm pm tz iv wb w.
    destruct (get_forecast_shape self loc fm None pm tz iv wb w) as [[e He]|[name He]];
      rewrite He.
    + exists []. split; [symmetry; apply app_nil_r|constructor].
    + eexists. split.
      * rewrite request_then_decode_world. apply request_wire.
      * constructor; [|constructor]. intros v.
        change (mk_call GET "forecast" _ None)
          with (forecast_call loc name pm tz iv wb (dt_calc_param None)).
        rewrite forecast_query, app_nil_r.
        rewrite !elem_of_cons, elem_of_nil. intros Hin.
        repeat destruct Hin as [Hin|Hin]; try discriminate Hin; exact Hin.
  - intros loc fm d pm tz iv wb w.
    destruct (get_forecast_shape self loc fm (Some d) pm tz iv wb w) as [[e He]|[name He]];
      rewrite He.
    + exists []. split; [symmetry; apply app_nil_r|constructor].
    + eexists. split.
      * rewrite request_then_decode_world. apply request_wire.
      * constructor; [|constructor].
        change (mk_call GET "forecast" _ None)
          with (forecast_call loc name pm tz iv wb (dt_calc_param (Some d))).
        rewrite forecast_query. apply elem_of_app. right. left.
Qed.

(** *** Decoding *)

Lemma get_measurements_shape self loc sd ed w :
  (exists e, get_measurements self loc sd ed w = (Raise e, w))
  \/ (exists start_s end_s,
        get_measurements self loc sd ed w
        = bind (_request self GET "measurement/inspect"
                  (call_params (measurements_call loc start_s end_s)) None)
               (fun body => lift (read_json body "split")) w).
Proof.
  destruct ed as [e|].
  - destruct sd as [s|].
    + right. do 2 eexists. apply get_measurements_dates.
    + left. eexists. reflexivity.
  - destruct (Datetime.sub (clock w) (timedelta 2)) as [d|] eqn:Hd.
    + right. do 2 eexists.
      rewrite (get_measurements_no_end _ _ _ _ _ Hd). apply get_measurements_dates.
    + left. eexists. apply get_measurements_no_end_overflow. exact Hd.
Qed.

(** A delivered body is what the decoding step receives. *)
Lemma decode_delivered self method path params data body orient w :
  delivers self (mk_call method path params data) body ->
  (bind (_request self method path params data)
        (fun b => lift (read_json b orient)) w).1
  = read_json body orient.
Proof.
  intros (status & Hresp & Hauth & Hok).
  unfold bind, _request. rewrite Hresp, Hauth, Hok. reflexivity.
Qed.

Lemma no_call_added (l : list request_call) c : l <> l ++ [c].
Proof.
  intros Heq. apply (f_equal length) in Heq.
  rewrite length_app in Heq. cbn in Heq. lia.
Qed.

(** C8: when the request of [get_measurements] and the request of
    [get_forecast] are answered with the same body text, each method returns
    what [read_json] with orientation "split" makes of that text, be it a
    table or a failure: the two results are equal. *)
Theorem forecast_decoded_as_measurements
    self loc_m sd ed loc_f fm dt pm tz iv wb w1 w2 c1 c2 body :
  calls (get_measurements self loc_m sd ed w1).2 = calls w1 ++ [c1] ->
  delivers self c1 body ->
  calls (get_forecast self loc_f fm dt pm tz iv wb w2).2 = calls w2 ++ [c2] ->
  delivers self c2 body ->
  (get_measurements self loc_m sd ed w1).1 = read_json body "split"
  /\ (get_forecast self loc_f fm dt pm tz iv wb w2).1 = read_json body "split"
  /\ (get_measurements self loc_m sd ed w1).1
     = (get_forecast self loc_f fm dt pm tz iv wb w2).1.
Proof.
  intros Hc1 Hd1 Hc2 Hd2.
  assert (Hm : (get_measurements self loc_m sd ed w1).1 = read_json body "split").
  { destruct (get_measurements_shape self loc_m sd ed w1) as [[e He]|(ss & es & He)];
      rewrite He in Hc1 |- *.
    - cbn in Hc1. destruct (no_call_added _ _ Hc1).
    - rewrite request_then_decode_world, request_calls in Hc1.
      apply app_inj_tail in Hc1 as [_ <-].
      apply decode_delivered. exact Hd1. }
  assert (Hf : (get_forecast self loc_f fm dt pm tz iv wb w2).1 = read_json body "split").
  { destruct (get_forecast_shape self loc_f fm dt pm tz iv wb w2) as [[e He]|[name He]];
      rewrite He in Hc2 |- *.
    - cbn in Hc2. destruct (no_call_added _ _ Hc2).
    - rewrite request_then_decode_world, request_calls in Hc2.
      apply app_inj_tail in Hc2 as [_ <-].
      apply decode_delivered. exact Hd2. }
  split; [exact Hm|]. split; [exact Hf|]. rewrite Hm, Hf. reflexivity.
Qed.

End Properties.

(** ** Further properties of the methods *)

Section Further.
Context `{Libraries} `{Backend}.

(** *** Steps that leave the world alone *)

Lemma bind_raise {A B} (m : Py A) (k : A -> Py B) w e :
  (m w).1 = Raise e -> (bind m k w).1 = Raise e.
Proof.
  unfold bind. destruct (m w) as [[a|e'] w']; cbn; [discriminate|].
  intros [= ->]. reflexivity.
Qed.

Lemma bind_raised {A B} (m : Py A) (k : A -> Py B) w e :
  m w = (Raise e, w) -> bind m k w = (Raise e, w).
Proof. intros Hm. unfold bind. rewrite Hm. reflexivity. Qed.

Lemma bind_world_ret {A B} (m : Py A) (f : A -> B) w :
  (bind m (fun a => ret (f a)) w).2 = (m w).2.
Proof. unfold bind, ret. destruct (m w) as [[a|e] w']; reflexivity. Qed.


(** The comprehension over [.dict()] yields one outcome whatever the world,
    and returns the world it was given. *)
Lemma comprehension_pure (ms : list EngineMeasurementForm) :
  exists o, forall w,
    comprehension (fun measurement => lift (dict measurement)) ms w = (o, w).
Proof.
  induction ms as [|m ms [o IH]].
  - eexists. intros w. reflexivity.
  - destruct (dict m) as [d|e] eqn:Hm.
    + destruct o as [ds|e].
      * exists (Return (d :: ds)). intros w. cbn [comprehension].
        unfold bind at 1, lift at 1. rewrite Hm. unfold bind at 1. rewrite IH. reflexivity.
      * exists (Raise e). intros w. cbn [comprehension].
        unfold bind at 1, lift at 1. rewrite Hm. unfold bind at 1. rewrite IH. reflexivity.
    + exists (Raise e). intros w. cbn [comprehension].
      unfold bind, lift. rewrite Hm. reflexivity.
Qed.

(** What the comprehension returns is the list of the records' dicts. *)
Lemma comprehension_return (ms : list EngineMeasurementForm) ds w w' :
  comprehension (fun measurement => lift (dict measurement)) ms w = (Return ds, w') ->
  Forall2 (fun m d => dict m = Return d) ms ds.
Proof.
  revert ds w w'. induction ms as [|m ms IH]; intros ds w w' Hrun.
  - cbn in Hrun. injection Hrun as <- _. constructor.
  - cbn [comprehension] in Hrun. unfold bind at 1, lift at 1 in Hrun.
    destruct (dict m) as [d|e] eqn:Hm; [|discriminate Hrun].
    unfold bind at 1 in Hrun.
    destruct (comprehension _ ms w) as [[ds'|e] w''] eqn:Hrest; [|discriminate Hrun].
    cbn in Hrun. injection Hrun as <- _.
    constructor; [exact Hm | eapply IH; exact Hrest].
Qed.

(** The ways [post_measurements] can go: it raises with the world as it was,
    or every record has its dict, the dicts are encoded, and the method is
    the one request. *)
Lemma post_measurements_cases self measurements w :
  (exists e, post_measurements self measurements w = (Raise e, w))
  \/ (exists ds text,
        Forall2 (fun m d => dict m = Return d) (as_list measurements) ds
        /\ json_dumps ds = Return text
        /\ post_measurements self measurements w
           = _request self POST "measurement/add" None (Some text) w).
Proof.
  destruct (comprehension_pure (as_list measurements)) as [o Ho].
  destruct o as [ds|e].
  - pose proof (comprehension_return _ _ _ _ (Ho w)) as Hvalid.
    destruct (json_dumps ds) as [text|e] eqn:Hdumps.
    + right. exists ds, text. split; [exact Hvalid|]. split; [exact Hdumps|].
      unfold post_measurements. unfold bind at 1, try_except_ValidationError.
      rewrite Ho. unfold bind, lift. rewrite Hdumps. reflexivity.
    + left. exists e. unfold post_measurements.
      unfold bind at 1, try_except_ValidationError.
      rewrite Ho. unfold bind, lift. rewrite Hdumps. reflexivity.
  - left. unfold post_measurements. unfold bind at 1, try_except_ValidationError.
    rewrite Ho. destruct e; eexists; reflexivity.
Qed.

(** The ways any method can go: it raises with the world as it was, or it is
    one call of the request layer, of a known form, followed by a step that
    leaves the world alone. *)
Lemma perform_cases self op w :
  (exists e, perform self op w = (Raise e, w))
  \/ (exists c,
        known_call c = true
        /\ (perform self op w).2
           = (_request self (call_method c) (call_path c) (call_params c) (call_data c)
                w).2
        /\ forall e,
             (_request self (call_method c) (call_path c) (call_params c) (call_data c)
                w).1 = Raise e ->
             (perform self op w).1 = Raise e).
Proof.
  destruct op as [loc sd ed|measurements|loc fm dt pm tz iv wb]; cbn [perform].
  - destruct (get_measurements_shape self loc sd ed w) as [[e He]|(ss & es & He)].
    + left. exists e. apply bind_raised. exact He.
    + right. exists (measurements_call loc ss es). split; [reflexivity|].
      cbn [measurements_call call_method call_path call_params call_data] in *.
      split.
      * rewrite bind_world_ret, He. apply request_then_decode_world.
      * intros e Heq. apply bind_raise. rewrite He. apply bind_raise. exact Heq.
  - destruct (post_measurements_cases self measurements w)
      as [[e He]|(ds & text & _ & _ & He)].
    + left. exists e. apply bind_raised. exact He.
    + right. exists (add_call text). split; [reflexivity|].
      cbn [add_call call_method call_path call_params call_data].
      split.
      * rewrite bind_world_ret, He. reflexivity.
      * intros e Heq. apply bind_raise. rewrite He. exact Heq.
  - destruct (get_forecast_shape self loc fm dt pm tz iv wb w) as [[e He]|[name He]].
    + left. exists e. apply bind_raised. exact He.
    + right. exists (forecast_call loc name pm tz iv wb (dt_calc_param dt)).
      split; [destruct dt; reflexivity|].
      cbn [forecast_call call_method call_path call_params call_data] in *.
      split.
      * rewrite bind_world_ret, He. apply request_then_decode_world.
      * intros e Heq. apply bind_raise. rewrite He. apply bind_raise. exact Heq.
Qed.

(** *** One request at most *)

Lemma call_eta (c : request_call) :
  mk_call (call_method c) (call_path c) (call_params c) (call_data c) = c.
Proof. destruct c; reflexivity. Qed.

(** X1: a method either raises and leaves the world exactly as it was, or
    appends exactly one call, of a form the client knows, to the log and
    leaves the clock alone.  So no method makes two requests, and a method
    that made none has raised. *)
Theorem perform_one_request_or_none self op w :
  ((perform self op w).2 = w /\ exists e, (perform self op w).1 = Raise e)
  \/ (exists c,
        known_call c = true
        /\ calls (perform self op w).2 = calls w ++ [c]
        /\ clock (perform self op w).2 = clock w).
Proof.
  destruct (perform_cases self op w) as [[e He]|(c & Hknown & Hworld & _)].
  - left. rewrite He. split; [reflexivity | exists e; reflexivity].
  - right. exists c. split; [exact Hknown|]. rewrite Hworld. split.
    + rewrite request_calls, call_eta. reflexivity.
    + apply request_clock.
Qed.

(** X2: no method catches what the request layer raises: when the call a
    method made is answered with an exception, the method raises that very
    exception. *)
Theorem request_failure_propagates self op w c e :
  calls (perform self op w).2 = calls w ++ [c] ->
  (_request self (call_method c) (call_path c) (call_params c) (call_data c) w).1
  = Raise e ->
  (perform self op w).1 = Raise e.
Proof.
  intros Hcalls Hraise.
  destruct (perform_cases self op w) as [[e' He]|(c' & _ & Hworld & Hprop)].
  - rewrite He in Hcalls. cbn in Hcalls. destruct (no_call_added _ _ Hcalls).
  - rewrite Hworld, request_calls, call_eta in Hcalls.
    apply app_inj_tail in Hcalls as [_ ->]. apply Hprop. exact Hraise.
Qed.

(** *** [post_measurements], failures and the empty batch *)

(** X3: no partial submission: whenever [post_measurements] makes a request,
    every record of the input has its dict, and the body of the request is
    [json.dumps] of all of them in order. *)
Theorem post_measurements_no_partial_submission self measurements w c :
  calls (post_measurements self measurements w).2 = calls w ++ [c] ->
  exists ds text,
    Forall2 (fun m d => dict m = Return d) (as_list measurements) ds
    /\ json_dumps ds = Return text
    /\ c = add_call text.
Proof.
  intros Hcalls.
  destruct (post_measurements_cases self measurements w)
    as [[e He]|(ds & text & Hvalid & Hdumps & He)].
  - rewrite He in Hcalls. cbn in Hcalls. destruct (no_call_added _ _ Hcalls).
  - exists ds, text. split; [exact Hvalid|]. split; [exact Hdumps|].
    rewrite He, request_calls in Hcalls.
    apply app_inj_tail in Hcalls as [_ <-]. reflexivity.
Qed.

(** X4: only validation errors are turned into [ValueError]: any other
    exception of a record's [.dict()] leaves the method as it was raised, and
    no request is made. *)
Theorem post_measurements_other_exception self measurements pre ds m rest e w :
  as_list measurements = pre ++ m :: rest ->
  Forall2 (fun x d => dict x = Return d) pre ds ->
  dict m = Raise e ->
  is_ValidationError e = false ->
  post_measurements self measurements w = (Raise e, w).
Proof.
  intros Hlist Hpre Hm He.
  unfold post_measurements. rewrite Hlist.
  unfold bind at 1, try_except_ValidationError.
  rewrite (comprehension_first_raise _ _ _ _ _ _ Hpre Hm).
  destruct e; try reflexivity. discriminate He.
Qed.

(** X5: when [json.dumps] raises on the dicts of a valid batch, the method
    raises that exception and makes no request. *)
Theorem post_measurements_encoding_failure self measurements ds e w :
  Forall2 (fun m d => dict m = Return d) (as_list measurements) ds ->
  json_dumps ds = Raise e ->
  post_measurements self measurements w = (Raise e, w).
Proof.
  intros Hvalid Hdumps. unfold post_measurements.
  unfold bind at 1, try_except_ValidationError.
  rewrite (comprehension_all_return _ _ _ Hvalid).
  unfold bind, lift. rewrite Hdumps. reflexivity.
Qed.

(** X7: an empty list is not short-cut: the method encodes the empty list and
    posts it. *)
Theorem post_measurements_empty self text w :
  json_dumps [] = Return text ->
  post_measurements self (Many []) w
  = _request self POST "measurement/add" None (Some text) w
  /\ calls (post_measurements self (Many []) w).2 = calls w ++ [add_call text].
Proof.
  intros Hdumps.
  assert (Hrun : post_measurements self (Many []) w
                 = _request self POST "measurement/add" None (Some text) w).
  { unfold post_measurements, bind, try_except_ValidationError, lift. cbn.
    rewrite Hdumps. reflexivity. }
  split; [exact Hrun|]. rewrite Hrun. apply request_calls.
Qed.

(** *** [get_forecast]: a value and its member *)

Lemma find_member (m : ForecastModels) :
  m ∈ members ->
  (forall m', m' ∈ members -> value m' = value m -> m' = m) ->
  List.find (fun x => bool_decide (value x = value m)) members = Some m.
Proof.
  intros Hm Hinj.
  destruct (List.find _ members) as [x|] eqn:Hfind.
  - apply find_some in Hfind as [Hx Hv].
    apply bool_decide_eq_true_1 in Hv. apply list_elem_of_In in Hx.
    f_equal. apply Hinj; assumption.
  - apply list_elem_of_In in Hm.
    pose proof (find_none _ _ Hfind m Hm) as Hb. cbn in Hb.
    apply bool_decide_eq_false_1 in Hb. destruct (Hb eq_refl).
Qed.

(** X6: for a member [m] whose value no other member shares, passing the
    string [m.value] is the same as passing [m]. *)
Theorem get_forecast_by_value self loc m dt pm tz iv wb w :
  m ∈ members ->
  (forall m', m' ∈ members -> value m' = value m -> m' = m) ->
  get_forecast self loc (Some (ByValue (value m))) dt pm tz iv wb w
  = get_forecast self loc (Some (ByMember m)) dt pm tz iv wb w.
Proof.
  intros Hm Hinj. unfold get_forecast, resolve_model, ForecastModels_call.
  rewrite (find_member m Hm Hinj). reflexivity.
Qed.

(** *** [get_measurements]: given dates and the early clock *)

(** X8: with both dates given the method makes its one request with the two
    dates as they are, formatted; it does not compare them and does not look
    at the clock. *)
Theorem get_measurements_given_dates self loc s e w :
  calls (get_measurements self loc (Some s) (Some e) w).2
  = calls w ++ [measurements_call loc (strftime s DATE_FORMAT) (strftime e DATE_FORMAT)].
Proof.
  rewrite get_measurements_dates, request_then_decode_world. apply request_calls.
Qed.

(** X9: when the clock reads less than two days after [datetime.min], the
    default start date does not exist: without [end_date] the method raises
    [OverflowError] and makes no request, whatever [start_date] is. *)
Theorem get_measurements_clock_too_early self loc sd w :
  micros (clock w) < timedelta 2 ->
  get_measurements self loc sd None w
  = (Raise (OverflowError "date value out of range"), w).
Proof.
  intros Hclock.
  assert (Hsub : Datetime.sub (clock w) (timedelta 2) = None).
  { unfold Datetime.sub, in_range.
    assert (Hneg : (0 <=? micros (clock w) - timedelta 2) = false)
      by (apply Z.leb_gt; lia).
    rewrite Hneg. reflexivity. }
  unfold get_measurements, bind, datetime_now, datetime_sub. rewrite Hsub. reflexivity.
Qed.

(** *** The clock *)

Lemma clock_blind_ret {A} (a : A) : clock_blind (ret a).
Proof. intros t w. reflexivity. Qed.

Lemma clock_blind_raise {A} (e : exn) : clock_blind (raise (A := A) e).
Proof. intros t w. reflexivity. Qed.

Lemma clock_blind_lift {A} (o : outcome A) : clock_blind (lift o).
Proof. intros t w. reflexivity. Qed.

Lemma clock_blind_bind {A B} (m : Py A) (k : A -> Py B) :
  clock_blind m -> (forall a, clock_blind (k a)) -> clock_blind (bind m k).
Proof.
  intros Hm Hk t w. unfold bind. rewrite Hm.
  destruct (m w) as [[a|e] w']; cbn; [apply Hk | reflexivity].
Qed.

Lemma clock_blind_try {A} (m : Py A) (handler : list field_error -> Py A) :
  clock_blind m -> (forall errs, clock_blind (handler errs)) ->
  clock_blind (try_except_ValidationError m handler).
Proof.
  intros Hm Hh t w. unfold try_except_ValidationError. rewrite Hm.
  destruct (m w) as [[a|e] w']; cbn; [reflexivity|].
  destruct e; try reflexivity. apply Hh.
Qed.

Lemma clock_blind_request self method path params data :
  clock_blind (_request self method path params data).
Proof.
  intros t w. unfold _request. cbn [with_clock clock calls wire].
  destruct (transport _) as [status body|]; [|reflexivity].
  destruct (is_unauthorized status); [reflexivity|].
  destruct (is_success status); reflexivity.
Qed.

Lemma clock_blind_comprehension {A B} (f : A -> Py B) (l : list A) :
  (forall x, clock_blind (f x)) -> clock_blind (comprehension f l).
Proof.
  intros Hf. induction l as [|x l IH]; cbn [comprehension].
  - apply clock_blind_ret.
  - apply clock_blind_bind; [apply Hf|]. intros y.
    apply clock_blind_bind; [exact IH|]. intros ys. apply clock_blind_ret.
Qed.

Lemma clock_blind_post_measurements self measurements :
  clock_blind (post_measurements self measurements).
Proof.
  unfold post_measurements. apply clock_blind_bind.
  - apply clock_blind_try.
    + apply clock_blind_comprehension. intros m. apply clock_blind_lift.
    + intros errs. apply clock_blind_raise.
  - intros ds. apply clock_blind_bind; [apply clock_blind_lift|].
    intros text. apply clock_blind_request.
Qed.

Lemma clock_blind_get_forecast self loc fm dt pm tz iv wb :
  clock_blind (get_forecast self loc fm dt pm tz iv wb).
Proof.
  unfold get_forecast. apply clock_blind_bind.
  - unfold resolve_model, ForecastModels_call.
    destruct fm as [[s|m]|]; [|apply clock_blind_ret..].
    destruct (List.find _ members); [apply clock_blind_ret | apply clock_blind_raise].
  - intros m. apply clock_blind_bind.
    + unfold naming_getitem.
      destruct (FORECASTING_MODELS_TO_ALITIQ_MODEL_NAMING !! m);
        [apply clock_blind_ret | apply clock_blind_raise].
    + intros name. apply clock_blind_bind; [apply clock_blind_request|].
      intros body. apply clock_blind_lift.
Qed.

Lemma clock_blind_get_measurements_until self loc sd e :
  clock_blind (get_measurements self loc sd (Some e)).
Proof.
  unfold get_measurements. apply clock_blind_bind; [apply clock_blind_ret|].
  intros [sd' e']. apply clock_blind_bind.
  - unfold attr_strftime. destruct sd'; [apply clock_blind_ret | apply clock_blind_raise].
  - intros ss. apply clock_blind_bind; [apply clock_blind_ret|].
    intros es. apply clock_blind_bind; [apply clock_blind_request|].
    intros body. apply clock_blind_lift.
Qed.

(** X10: the current time matters to [get_measurements] without [end_date]
    only: every other call gives, under another clock, the same outcome and
    the same requests. *)
Theorem perform_clock_independent self op t w :
  reads_clock op = false ->
  perform self op (with_clock t w)
  = ((perform self op w).1, with_clock t (perform self op w).2).
Proof.
  intros Hop. revert t w. change (clock_blind (perform self op)).
  destruct op as [loc sd [e|]|measurements|loc fm dt pm tz iv wb];
    [| discriminate Hop | |]; cbn [perform].
  - apply clock_blind_bind; [apply clock_blind_get_measurements_until|].
    intros df. apply clock_blind_ret.
  - apply clock_blind_bind; [apply clock_blind_post_measurements|].
    intros text. apply clock_blind_ret.
  - apply clock_blind_bind; [apply clock_blind_get_forecast|].
    intros df. apply clock_blind_ret.
Qed.

End Further.

(** ** Properties of the nox sessions *)

Section NoxProperties.
Import Noxfile.
Variable succeeds : command -> bool.

Lemma py_or_nonempty (x : list string) : py_or x locations <> [].
Proof. destruct x; discriminate. Qed.

(** What a session of the shape install-then-run does. *)
Lemma install_then_run packages argv log :
  and_then (issue succeeds (Install packages)) (issue succeeds (Run argv)) log
  = if succeeds (Install packages)
    then (succeeds (Run argv), log ++ [Install packages; Run argv])
    else (false, log ++ [Install packages]).
Proof.
  unfold and_then, issue. destruct (succeeds (Install packages)); [|reflexivity].
  rewrite <- app_assoc. reflexivity.
Qed.

(** X11: whatever the positional arguments, a session never runs its tool
    without a target: the targets are the positional arguments when there
    are some and "alitiq" when there are none. *)
Theorem sessions_never_without_target posargs log :
  Forall (fun session =>
            forall argv,
              Run argv ∈ (session posargs log).2 ->
              Run argv ∈ log
              \/ exists tool targets,
                   argv = tool :: targets
                   /\ targets <> []
                   /\ targets = match posargs with [] => ["alitiq"] | _ => posargs end)
         (sessions succeeds).
Proof.
  assert (Hshape : forall packages tool argv,
             Run argv ∈ (and_then (issue succeeds (Install packages))
                          (issue succeeds (Run (tool :: py_or posargs locations))) log).2 ->
             Run argv ∈ log
             \/ exists tool targets,
                  argv = tool :: targets
                  /\ targets <> []
                  /\ targets = match posargs with [] => ["alitiq"] | _ => posargs end).
  { intros packages tool argv. rewrite install_then_run.
    destruct (succeeds (Install packages)); cbn [snd];
      rewrite elem_of_app; intros [Hlog|Hnew]; try (left; exact Hlog).
    - apply elem_of_cons in Hnew as [Hnew|Hnew]; [discriminate Hnew|].
      apply list_elem_of_singleton in Hnew. injection Hnew as ->.
      right. exists tool, (py_or posargs locations).
      split; [reflexivity|]. split; [apply py_or_nonempty|].
      destruct posargs; reflexivity.
    - apply list_elem_of_singleton in Hnew. discriminate Hnew. }
  unfold sessions.
  constructor; [intros argv; apply Hshape|].
  constructor; [intros argv; apply Hshape|].
  constructor; [intros argv; apply Hshape|].
  constructor.
Qed.

(** X12: a session installs, then runs its tool on the targets, and runs it
    only when the installation succeeded; when the installation fails the
    session stops there.  Nothing else is issued and the earlier commands
    stay. *)
Theorem sessions_install_first posargs log :
  Forall (fun session =>
            exists packages tool,
              packages <> []
              /\ session posargs log
                 = if succeeds (Install packages)
                   then (succeeds (Run (tool :: py_or posargs locations)),
                         log ++ [Install packages; Run (tool :: py_or posargs locations)])
                   else (false, log ++ [Install packages]))
         (sessions succeeds).
Proof.
  unfold sessions.
  constructor; [do 2 eexists; split; [|apply install_then_run]; discriminate|].
  constructor; [do 2 eexists; split; [|apply install_then_run]; discriminate|].
  constructor; [do 2 eexists; split; [|apply install_then_run]; discriminate|].
  constructor.
Qed.

End NoxProperties.

(** ** The methods at work on the concrete installation *)

Import Fixture.

(** The clock of [start] reads 2024-03-01T12:00:00; two days earlier is
    2024-02-28T12:00:00, 2024 being a leap year. *)
Lemma get_measurements_default_dates_run :
  timedelta 2 <= micros (clock start) < MAX_ORDINAL * US_PER_DAY
  /\ (forall sd, exists start_s,
         calls (get_measurements client "loc-1" sd None start).2
         = calls start ++ [measurements_call "loc-1" start_s "2024-03-01T12:00:00"])
  /\ calls (get_measurements client "loc-1" None None start).2
     = calls start
       ++ [measurements_call "loc-1" "2024-02-28T12:00:00" "2024-03-01T12:00:00"].
Proof.
  assert (Hclock : timedelta 2 <= micros (clock start) < MAX_ORDINAL * US_PER_DAY)
    by (vm_compute; split; [discriminate | reflexivity]).
  split; [exact Hclock|].
  exact (get_measurements_default_dates client "loc-1" start Hclock).
Defined.

Lemma get_measurements_start_ignored_run :
  timedelta 2 <= micros (clock start) < MAX_ORDINAL * US_PER_DAY
  /\ calls (get_measurements client "loc-1" (Some (mk_datetime 0)) None start).2
     = calls start
       ++ [measurements_call "loc-1" "2024-02-28T12:00:00" "2024-03-01T12:00:00"]
  /\ get_measurements client "loc-1" (Some (mk_datetime 0)) None start
     = get_measurements client "loc-1" None None start.
Proof.
  assert (Hclock : timedelta 2 <= micros (clock start) < MAX_ORDINAL * US_PER_DAY)
    by (vm_compute; split; [discriminate | reflexivity]).
  split; [exact Hclock|].
  exact (get_measurements_start_ignored client "loc-1" (mk_datetime 0) start Hclock).
Defined.

(** C1 does not hold of the code.  Of the batch [good; no_location;
    no_timestamp] two records violate the schema, each in a field of its own.
    [.dict()] serialises all three, nothing is raised, and the method returns
    the response of the one request it makes, whose body carries the invalid
    records: no [ValidationError], and a request where the claim has none. *)
Theorem post_measurements_posts_invalid_records :
  violations no_location = [mk_field_error "location" "field required"]
  /\ violations no_timestamp = [mk_field_error "timestamp" "field required"]
  /\ (post_measurements client (Many [good; no_location; no_timestamp]) start).1
     = Return "accepted"
  /\ calls (post_measurements client (Many [good; no_location; no_timestamp]) start).2
     = calls start
       ++ [add_call ("[{'timestamp': '2024-03-01T11:45:00', 'location': 'loc-1', 'value': 42}, "
                     +:+ "{'timestamp': '2024-03-01T11:45:00', 'location': '', 'value': 7}, "
                     +:+ "{'timestamp': '', 'location': 'loc-2', 'value': 8}]")].
Proof.
  split; [reflexivity|]. split; [reflexivity|].
  split; vm_compute; reflexivity.
Qed.

Lemma post_measurements_valid_run :
  Forall2 (fun m d => dict m = Return d) (as_list (Many [good; good']))
    [[("timestamp", PStr "2024-03-01T11:45:00"); ("location", PStr "loc-1");
      ("value", PInt 42)];
     [("timestamp", PStr "2024-03-01T12:00:00"); ("location", PStr "loc-1");
      ("value", PInt 43)]]
  /\ (forall m, as_list (Single m) = [m])
  /\ calls (post_measurements client (Many [good; good']) start).2
     = calls start
       ++ [add_call ("[{'timestamp': '2024-03-01T11:45:00', 'location': 'loc-1', 'value': 42}, "
                     +:+ "{'timestamp': '2024-03-01T12:00:00', 'location': 'loc-1', 'value': 43}]")]
  /\ post_measurements client (Many [good; good']) start
     = _request client POST "measurement/add" None
         (Some ("[{'timestamp': '2024-03-01T11:45:00', 'location': 'loc-1', 'value': 42}, "
                +:+ "{'timestamp': '2024-03-01T12:00:00', 'location': 'loc-1', 'value': 43}]"))
         start.
Proof.
  assert (Hvalid : Forall2 (fun m d => dict m = Return d) (as_list (Many [good; good']))
            [[("timestamp", PStr "2024-03-01T11:45:00"); ("location", PStr "loc-1");
              ("value", PInt 42)];
             [("timestamp", PStr "2024-03-01T12:00:00"); ("location", PStr "loc-1");
              ("value", PInt 43)]])
    by (repeat constructor).
  split; [exact Hvalid|].
  exact (post_measurements_valid client (Many [good; good']) _ _ start Hvalid eq_refl).
Defined.

Lemma get_forecast_unknown_string_run :
  (forall m, m ∈ members -> value m <> "string-that-is-not-a-model")
  /\ get_forecast client "loc-1" (Some (ByValue "string-that-is-not-a-model")) None
       "kW" "UTC" 15 "end" start
     = (Raise (ValueError "'string-that-is-not-a-model' is not a valid ForecastModels"),
        start).
Proof.
  assert (Hs : forall m, m ∈ members -> value m <> "string-that-is-not-a-model")
    by (apply no_member_valued; vm_compute; reflexivity).
  split; [exact Hs|].
  exact (get_forecast_unknown_string client "loc-1" "string-that-is-not-a-model" None
           "kW" "UTC" 15 "end" start Hs).
Defined.

(** C3 as stated fails on "string-that-is-not-a-model": the string is the
    value of no member, and the method raises [ValueError], not
    [ValidationError]. *)
Lemma get_forecast_unknown_string_not_validation :
  List.find (fun m => bool_decide (value m = "string-that-is-not-a-model")) members = None
  /\ get_forecast client "loc-1" (Some (ByValue "string-that-is-not-a-model")) None
       "kW" "UTC" 15 "end" start
     = (Raise (ValueError "'string-that-is-not-a-model' is not a valid ForecastModels"),
        start)
  /\ ~ (exists errs,
          (get_forecast client "loc-1" (Some (ByValue "string-that-is-not-a-model")) None
             "kW" "UTC" 15 "end" start).1
          = Raise (ValidationError errs)).
Proof.
  split; [reflexivity|]. split; [reflexivity|].
  intros (errs & Hraise). vm_compute in Hraise. discriminate Hraise.
Qed.

Lemma get_forecast_missing_entry_run :
  FORECASTING_MODELS_TO_ALITIQ_MODEL_NAMING !! ModelUnmapped = None
  /\ get_forecast client "loc-1" (Some (ByMember ModelUnmapped)) None "kW" "UTC" 15 "end"
       start
     = (Raise (KeyError ModelUnmapped), start).
Proof.
  assert (Hm : FORECASTING_MODELS_TO_ALITIQ_MODEL_NAMING !! ModelUnmapped = None)
    by (vm_compute; reflexivity).
  split; [exact Hm|].
  exact (get_forecast_missing_entry client "loc-1" ModelUnmapped None "kW" "UTC" 15 "end"
           start Hm).
Defined.

(** C4 as stated fails on a table without entry for the model: the method
    raises the [KeyError] of the subscript, not [ConfigurationError]. *)
Lemma get_forecast_missing_entry_not_configuration :
  FORECASTING_MODELS_TO_ALITIQ_MODEL_NAMING !! ModelUnmapped = None
  /\ get_forecast client "loc-1" (Some (ByMember ModelUnmapped)) None "kW" "UTC" 15 "end"
       start
     = (Raise (KeyError ModelUnmapped), start)
  /\ ~ (exists message,
          (get_forecast client "loc-1" (Some (ByMember ModelUnmapped)) None
             "kW" "UTC" 15 "end" start).1
          = Raise (ConfigurationError message)).
Proof.
  split; [vm_compute; reflexivity|]. split; [vm_compute; reflexivity|].
  intros (message & Hraise). vm_compute in Hraise. discriminate Hraise.
Qed.

Lemma get_forecast_default_model_run :
  FORECASTING_MODELS_TO_ALITIQ_MODEL_NAMING !! ICON_EU = Some "provider_icon_eu"
  /\ calls (get_forecast client "loc-1" None None "kW" "UTC" 15 "end" start).2
     = calls start ++ [forecast_call "loc-1" "provider_icon_eu" "kW" "UTC" 15 "end" PNone]
  /\ dict_get "weather_model"
       (default [] (call_params
                      (forecast_call "loc-1" "provider_icon_eu" "kW" "UTC" 15 "end" PNone)))
     = Some (PStr "provider_icon_eu")
  /\ get_forecast client "loc-1" None None "kW" "UTC" 15 "end" start
     = get_forecast client "loc-1" (Some (ByMember ICON_EU)) None "kW" "UTC" 15 "end" start.
Proof.
  assert (Hname : FORECASTING_MODELS_TO_ALITIQ_MODEL_NAMING !! ICON_EU
                  = Some "provider_icon_eu")
    by (vm_compute; reflexivity).
  split; [exact Hname|].
  exact (get_forecast_default_model client "loc-1" None "kW" "UTC" 15 "end" start
           "provider_icon_eu" Hname).
Defined.

(** Without calculation time the request on the wire has seven parameters
    and no [dt_calc]. *)
Example get_forecast_wire_run :
  wire (get_forecast client "loc-1" None None "kW" "UTC" 15 "end" start).2
  = [mk_http GET "https://api.example/demand/forecast" "secret"
       [("id_location", PStr "loc-1"); ("response_format", PStr "json");
        ("weather_model", PStr "provider_icon_eu"); ("power_measure", PStr "kW");
        ("timezone", PStr "UTC"); ("interval_in_minutes", PInt 15);
        ("window_boundary", PStr "end")]
       None].
Proof. vm_compute. reflexivity. Qed.

Lemma forecast_decoded_as_measurements_run :
  delivers client (measurements_call "loc-1" "2024-02-28T12:00:00" "2024-03-01T12:00:00")
    "{index:[0,1],columns:[a],data:[[1],[2]]}"
  /\ delivers client (forecast_call "loc-2" "provider_icon_eu" "kW" "UTC" 15 "end" PNone)
       "{index:[0,1],columns:[a],data:[[1],[2]]}"
  /\ (get_measurements client "loc-1" None None start).1
     = read_json "{index:[0,1],columns:[a],data:[[1],[2]]}" "split"
  /\ (get_forecast client "loc-2" None None "kW" "UTC" 15 "end" start).1
     = read_json "{index:[0,1],columns:[a],data:[[1],[2]]}" "split"
  /\ (get_measurements client "loc-1" None None start).1
     = (get_forecast client "loc-2" None None "kW" "UTC" 15 "end" start).1.
Proof.
  assert (Hm : delivers client
                 (measurements_call "loc-1" "2024-02-28T12:00:00" "2024-03-01T12:00:00")
                 "{index:[0,1],columns:[a],data:[[1],[2]]}")
    by (exists 200; repeat split; reflexivity).
  assert (Hf : delivers client
                 (forecast_call "loc-2" "provider_icon_eu" "kW" "UTC" 15 "end" PNone)
                 "{index:[0,1],columns:[a],data:[[1],[2]]}")
    by (exists 200; repeat split; reflexivity).
  split; [exact Hm|]. split; [exact Hf|].
  refine (forecast_decoded_as_measurements client "loc-1" None None "loc-2" None None
            "kW" "UTC" 15 "end" start start _ _ _ _ Hm _ Hf).
  - vm_compute. reflexivity.
  - vm_compute. reflexivity.
Defined.

(** ** Further runs *)

(** A client without key is refused with status 401: the method raises
    [AuthenticationError] as the request layer did. *)
Lemma request_failure_propagates_run :
  calls (perform (alitiqDemandAPI "")
           (GetForecast "loc-1" None None "kW" "UTC" 15 "end") start).2
  = calls start ++ [forecast_call "loc-1" "provider_icon_eu" "kW" "UTC" 15 "end" PNone]
  /\ (perform (alitiqDemandAPI "")
        (GetForecast "loc-1" None None "kW" "UTC" 15 "end") start).1
     = Raise AuthenticationError.
Proof.
  assert (Hcalls : calls (perform (alitiqDemandAPI "")
                            (GetForecast "loc-1" None None "kW" "UTC" 15 "end") start).2
                   = calls start
                     ++ [forecast_call "loc-1" "provider_icon_eu" "kW" "UTC" 15 "end" PNone])
    by (vm_compute; reflexivity).
  split; [exact Hcalls|].
  refine (request_failure_propagates (alitiqDemandAPI "")
            (GetForecast "loc-1" None None "kW" "UTC" 15 "end") start _ AuthenticationError
            Hcalls _).
  vm_compute. reflexivity.
Defined.

Lemma post_measurements_no_partial_submission_run :
  calls (post_measurements client (Many [good; good']) start).2
  = calls start
    ++ [add_call ("[{'timestamp': '2024-03-01T11:45:00', 'location': 'loc-1', 'value': 42}, "
                  +:+ "{'timestamp': '2024-03-01T12:00:00', 'location': 'loc-1', 'value': 43}]")]
  /\ exists ds text,
       Forall2 (fun m d => dict m = Return d) (as_list (Many [good; good'])) ds
       /\ json_dumps ds = Return text
       /\ add_call ("[{'timestamp': '2024-03-01T11:45:00', 'location': 'loc-1', 'value': 42}, "
                    +:+ "{'timestamp': '2024-03-01T12:00:00', 'location': 'loc-1', 'value': 43}]")
          = add_call text.
Proof.
  assert (Hcalls : calls (post_measurements client (Many [good; good']) start).2
            = calls start
              ++ [add_call ("[{'timestamp': '2024-03-01T11:45:00', 'location': 'loc-1', 'value': 42}, "
                            +:+ "{'timestamp': '2024-03-01T12:00:00', 'location': 'loc-1', 'value': 43}]")])
    by (vm_compute; reflexivity).
  split; [exact Hcalls|].
  exact (post_measurements_no_partial_submission client (Many [good; good']) start _ Hcalls).
Defined.

Lemma get_forecast_by_value_run :
  ModelIconEu ∈ members
  /\ (forall m', m' ∈ members -> value m' = value ModelIconEu -> m' = ModelIconEu)
  /\ get_forecast client "loc-1" (Some (ByValue "icon_eu")) None "kW" "UTC" 15 "end" start
     = get_forecast client "loc-1" (Some (ByMember ModelIconEu)) None "kW" "UTC" 15 "end"
         start.
Proof.
  assert (Hm : ModelIconEu ∈ members) by (left).
  assert (Hinj : forall m', m' ∈ members -> value m' = value ModelIconEu -> m' = ModelIconEu).
  { intros [] _ Hv; [reflexivity | discriminate Hv]. }
  split; [exact Hm|]. split; [exact Hinj|].
  exact (get_forecast_by_value client "loc-1" ModelIconEu None "kW" "UTC" 15 "end" start
           Hm Hinj).
Defined.

Lemma post_measurements_empty_run :
  json_dumps [] = Return "[]"
  /\ post_measurements client (Many []) start
     = _request client POST "measurement/add" None (Some "[]") start
  /\ calls (post_measurements client (Many []) start).2 = calls start ++ [add_call "[]"].
Proof.
  split; [reflexivity|].
  exact (post_measurements_empty client "[]" start eq_refl).
Defined.

(** At 0001-01-02T00:00:00 there is no moment two days earlier. *)
Lemma get_measurements_clock_too_early_run :
  micros (clock (mk_world (mk_datetime 86400000000) [] [])) < timedelta 2
  /\ get_measurements client "loc-1" None None (mk_world (mk_datetime 86400000000) [] [])
     = (Raise (OverflowError "date value out of range"),
        mk_world (mk_datetime 86400000000) [] []).
Proof.
  assert (Hclock : micros (clock (mk_world (mk_datetime 86400000000) [] [])) < timedelta 2)
    by (vm_compute; reflexivity).
  split; [exact Hclock|].
  exact (get_measurements_clock_too_early client "loc-1" None
           (mk_world (mk_datetime 86400000000) [] []) Hclock).
Defined.

Lemma perform_clock_independent_run :
  reads_clock (GetForecast "loc-1" None None "kW" "UTC" 15 "end") = false
  /\ perform client (GetForecast "loc-1" None None "kW" "UTC" 15 "end")
       (with_clock (mk_datetime 0) start)
     = ((perform client (GetForecast "loc-1" None None "kW" "UTC" 15 "end") start).1,
        with_clock (mk_datetime 0)
          (perform client (GetForecast "loc-1" None None "kW" "UTC" 15 "end") start).2).
Proof.
  split; [reflexivity|].
  exact (perform_clock_independent client
           (GetForecast "loc-1" None None "kW" "UTC" 15 "end") (mk_datetime 0) start eq_refl).
Defined.

Section BrittleRuns.
Import Brittle.

(** The record with a negative value makes [.dict()] raise [TypeError]; it
    reaches the caller as it is. *)
Lemma post_measurements_other_exception_run :
  dict negative = Raise (TypeError "unsupported operand")
  /\ post_measurements brittle_client (Many [modest; negative]) start
     = (Raise (TypeError "unsupported operand"), start).
Proof.
  split; [reflexivity|].
  refine (post_measurements_other_exception brittle_client (Many [modest; negative])
            [modest]
            [[("timestamp", PStr "2024-03-01T11:45:00"); ("location", PStr "loc-1");
              ("value", PInt 42)]]
            negative [] (TypeError "unsupported operand") start _ _ _ _).
  - reflexivity.
  - constructor; [reflexivity | constructor].
  - reflexivity.
  - reflexivity.
Defined.

(** Both records are valid, the encoder refuses the value 5000. *)
Lemma post_measurements_encoding_failure_run :
  Forall2 (fun m d => dict m = Return d) (as_list (Many [modest; huge]))
    [[("timestamp", PStr "2024-03-01T11:45:00"); ("location", PStr "loc-1");
      ("value", PInt 42)];
     [("timestamp", PStr "2024-03-01T12:00:00"); ("location", PStr "loc-1");
      ("value", PInt 5000)]]
  /\ post_measurements brittle_client (Many [modest; huge]) start
     = (Raise (TypeError "Object is not JSON serializable"), start).
Proof.
  assert (Hvalid : Forall2 (fun m d => dict m = Return d) (as_list (Many [modest; huge]))
            [[("timestamp", PStr "2024-03-01T11:45:00"); ("location", PStr "loc-1");
              ("value", PInt 42)];
             [("timestamp", PStr "2024-03-01T12:00:00"); ("location", PStr "loc-1");
              ("value", PInt 5000)]])
    by (repeat constructor).
  split; [exact Hvalid|].
  exact (post_measurements_encoding_failure brittle_client (Many [modest; huge]) _
           (TypeError "Object is not JSON serializable") start Hvalid eq_refl).
Defined.

End BrittleRuns.
